(** * jitsi-meet-react: the conference and participant action creators

    A shallow embedding of
    - [features/base/participants/actions.js] (participant action creators),
    - the conference [actions.js] (conference action creators and the
      listeners it registers on the SDK conference object),
    and the properties of them that the specification states.

    JavaScript objects are finite maps from property names to values,
    the Redux store is a state plus a log of what was dispatched and which
    SDK methods were called, and a thunk is a computation over that store
    which may throw. *)

From stdpp Require Import base option list strings gmap.

(** ** JavaScript values *)

(** The values that flow through the action creators: ids, names, emails and
    roles are strings (or [null]/[undefined]), flags are booleans, and SDK
    objects (conference, track) are opaque references. *)
Inductive val : Type :=
| VUndefined
| VNull
| VBool (b : bool)
| VStr (s : string)
| VRef (h : nat).

#[global] Instance val_eq_dec : EqDecision val.
Proof. solve_decision. Defined.

(** [a === b] *)
Definition strictEq (a b : val) : bool := bool_decide (a = b).

(** ToBoolean: what [if (v)], [!v], [v && ...] test. *)
Definition truthy (v : val) : bool :=
  match v with
  | VUndefined => false
  | VNull => false
  | VBool b => b
  | VStr s => negb (bool_decide (s = EmptyString))
  | VRef _ => true
  end.

(** A plain object: property name -> value. *)
Abbreviation obj := (gmap string val).

(** [o.k]: reading a missing property gives [undefined]. *)
Definition get (o : obj) (k : string) : val := default VUndefined (o !! k).

(** [{...src}] copied into the literal built so far; later properties of
    the literal are then written with insert. *)
Definition spread (src literal : obj) : obj := src ∪ literal.

(** ** Actions *)

(** The constants of the two [actionTypes] modules. *)
Inductive actionType : Type :=
| DOMINANT_SPEAKER_CHANGED
| PARTICIPANT_ID_CHANGED
| PARTICIPANT_JOINED
| PARTICIPANT_LEFT
| PARTICIPANT_PINNED
| PARTICIPANT_UPDATED
| CONFERENCE_JOINED
| CONFERENCE_LEFT
| ROOM_SET.

#[global] Instance actionType_eq_dec : EqDecision actionType.
Proof. solve_decision. Defined.

(** SDK handles. *)
Definition JitsiConnection := nat.
Definition JitsiConference := nat.

(** [track.isLocal()] is the only method of a track the code calls. *)
Record JitsiTrack : Type := mkJitsiTrack {
  trackRef : nat;
  isLocal : bool
}.

(** The action creators imported from [../tracks]; their bodies are not part
    of these sources, so what they return is kept as the call itself. *)
Inductive tracksCreator : Type := trackAdded | trackMuteChanged | trackRemoved.

(** What is handed to [dispatch]:
    [{ type, participant }], [{ type, conference }], or the value of a
    [../tracks] creator applied to the track the SDK delivered ([None] is a
    [null]/[undefined] track). *)
Inductive action : Type :=
| ParticipantAction (type : actionType) (participant : obj)
| ConferenceAction (type : actionType) (conference : obj)
| TracksAction (creator : tracksCreator) (track : option JitsiTrack).

(** ** Store state *)

(** An entry of the tracks slice. *)
Record Track : Type := mkTrack {
  local : bool;
  jitsiTrack : JitsiTrack
}.

(** [state['features/base/conference']]; [None] is a [jitsiConference] that
    is [null] or [undefined] (no conference, or cleared on leave). *)
Record ConferenceState : Type := mkConferenceState {
  jitsiConference : option JitsiConference
}.

Record State : Type := mkState {
  (** [state['features/base/connection']], falsy when [None] *)
  connection : option JitsiConnection;
  (** [state['features/base/conference']] *)
  conference : ConferenceState;
  (** [state['features/base/participants']], the roster *)
  participants : list obj;
  (** [state['features/base/tracks']] *)
  tracks : list Track
}.

(** ** SDK events and listeners *)

Module JitsiConferenceEvents.
Inductive t : Type :=
| CONFERENCE_JOINED
| CONFERENCE_LEFT
| DOMINANT_SPEAKER_CHANGED
| TRACK_ADDED
| TRACK_MUTE_CHANGED
| TRACK_REMOVED
| USER_JOINED
| USER_LEFT
| USER_ROLE_CHANGED.
End JitsiConferenceEvents.

(** The [user] object of [USER_JOINED]: the results of its two getters. *)
Record JitsiParticipant : Type := mkJitsiParticipant {
  getDisplayName : val;
  getRole : val
}.

(** The arrow functions that [_setupConferenceListeners] registers, indexed
    by the arguments the SDK calls them with. The first two close over the
    conference. *)
Inductive listener : Type -> Type :=
| onConferenceJoined (conference : JitsiConference) : listener unit
| onConferenceLeft (conference : JitsiConference) : listener unit
| onDominantSpeakerChanged : listener val
| onTrackAdded : listener (option JitsiTrack)
| onTrackMuteChanged : listener (option JitsiTrack)
| onTrackRemoved : listener (option JitsiTrack)
| onUserJoined : listener (val * JitsiParticipant)
| onUserLeft : listener val
| onUserRoleChanged : listener (val * val)
| onEmailCommand : listener (obj * val).

(** [EMAIL_COMMAND] of [./constants]. *)
Inductive command : Type := EMAIL_COMMAND.

(** What a run leaves behind, in order: dispatched actions and calls into
    the SDK (and into [_addLocalTracksToConference] of [./functions]). *)
Inductive event : Type :=
| Dispatched (a : action)
| Sdk_initJitsiConference (connection : JitsiConnection) (room : val)
                          (options : obj)
| Sdk_on {A : Type} (conference : JitsiConference)
         (ev : JitsiConferenceEvents.t) (l : listener A)
| Sdk_addCommandListener {A : Type} (conference : JitsiConference)
                         (cmd : command) (l : listener A)
| Sdk_join (conference : JitsiConference)
| Sdk_pinParticipant (conference : JitsiConference) (id : val)
| Call_addLocalTracksToConference (conference : JitsiConference)
                                  (localTracks : list JitsiTrack).

(** ** The store monad *)

Inductive error : Type :=
| Error (message : string)
| TypeError.

Inductive completion (A : Type) : Type :=
| Normal (a : A)
| Throw (e : error).
Arguments Normal {A} a.
Arguments Throw {A} e.

Record Store : Type := mkStore {
  getStoreState : State;
  log : list event
}.

Definition M (A : Type) : Type := Store -> completion A * Store.

Definition ret {A} (a : A) : M A := fun st => (Normal a, st).

Definition bind {A B} (m : M A) (k : A -> M B) : M B :=
  fun st =>
    match m st with
    | (Normal a, st') => k a st'
    | (Throw e, st') => (Throw e, st')
    end.

Definition throw {A} (e : error) : M A := fun st => (Throw e, st).

Notation "x <~ m ;; k" := (bind m (fun x => k))
  (at level 20, m at level 99, k at level 200, only parsing).
Notation "m ;;; k" := (bind m (fun _ => k))
  (at level 100, k at level 200, right associativity, only parsing).

Definition getState : M State := fun st => (Normal (getStoreState st), st).

(** A call that leaves the JavaScript of this repository: recorded. *)
Definition emit (e : event) : M unit :=
  fun st => (Normal tt, mkStore (getStoreState st) (log st ++ [e])).

(** [conference.pinParticipant(id)] where [conference] was read from the
    state: a method call on [null]/[undefined] throws a TypeError. *)
Definition conference_pinParticipant (c : option JitsiConference) (id : val)
  : M unit :=
  match c with
  | Some c => emit (Sdk_pinParticipant c id)
  | None => throw TypeError
  end.

Section Actions.

(** The root reducer of the store (the [./reducer] modules are registered
    by the imports at the top of both files). *)
Variable reducer : State -> action -> State.

(** The conference handle [connection.initJitsiConference(room, options)]
    returns. *)
Variable initJitsiConference : JitsiConnection -> val -> obj -> JitsiConference.

(** [dispatch(action)] for a plain action: the reducer runs, and
    [dispatch] returns the action. *)
Definition dispatch (a : action) : M action :=
  fun st =>
    (Normal a, mkStore (reducer (getStoreState st) a) (log st ++ [Dispatched a])).

(** [dispatch(thunk)]: the thunk middleware calls
    [thunk(dispatch, getState)] and returns its result. *)
Definition dispatchThunk {A} (thunk : M A) : M A := thunk.

(** *** features/base/participants/actions.js *)

Definition changeParticipantEmail (id email : val) : action :=
  ParticipantAction PARTICIPANT_UPDATED
    (<["id" := id]> (<["email" := email]> ∅)).

Definition dominantSpeakerChanged (id : val) : action :=
  ParticipantAction DOMINANT_SPEAKER_CHANGED {["id" := id]}.

Definition participantJoined (participant : obj) : action :=
  ParticipantAction PARTICIPANT_JOINED participant.

Definition participantLeft (id : val) : action :=
  ParticipantAction PARTICIPANT_LEFT {["id" := id]}.

Definition participantRoleChanged (id role : val) : action :=
  ParticipantAction PARTICIPANT_UPDATED
    (<["id" := id]> (<["role" := role]> ∅)).

(** [participant = {}]: [None] is an omitted (or [undefined]) argument. *)
Definition localParticipantJoined (participant : option obj) : action :=
  let participant := default ∅ participant in
  participantJoined (<["local" := VBool true]> (spread participant ∅)).

Definition _getLocalParticipant : M (option obj) :=
  state <~ getState ;;
  ret (List.find (fun p => truthy (get p "local")) (participants state)).

Definition localParticipantIdChanged (id : val) : M (option action) :=
  localParticipant <~ _getLocalParticipant ;;
  match localParticipant with
  | Some localParticipant =>
      a <~ dispatch (ParticipantAction PARTICIPANT_ID_CHANGED
             (<["newId" := id]>
               (<["previousId" := get localParticipant "id"]> ∅))) ;;
      ret (Some a)
  | None => ret None
  end.

Definition localParticipantLeft : M (option action) :=
  participant <~ _getLocalParticipant ;;
  match participant with
  | Some participant =>
      a <~ dispatch (participantLeft (get participant "id")) ;;
      ret (Some a)
  | None => ret None
  end.

(** The condition of the [if] in [pinParticipant]:
    [(participant && !participant.local) ||
     (!participant && (!localParticipant || !localParticipant.pinned))]. *)
Definition pinCondition (participant localParticipant : option obj) : bool :=
  match participant with
  | Some p => negb (truthy (get p "local"))
  | None => false
  end
  ||
  match participant with
  | Some _ => false
  | None =>
      match localParticipant with
      | None => true
      | Some lp => negb (truthy (get lp "pinned"))
      end
  end.

Definition pinParticipant (id : val) : M action :=
  state <~ getState ;;
  let conference := jitsiConference (conference state) in
  let participant :=
    List.find (fun p => strictEq (get p "id") id) (participants state) in
  localParticipant <~ _getLocalParticipant ;;
  (if pinCondition participant localParticipant
   then conference_pinParticipant conference id
   else ret tt) ;;;
  dispatch (ParticipantAction PARTICIPANT_PINNED {["id" := id]}).

(** *** features/base/conference/actions.js *)

Definition conferenceLeft (conference : JitsiConference) : action :=
  ConferenceAction CONFERENCE_LEFT {["jitsiConference" := VRef conference]}.

Definition roomSet (room : val) : action :=
  ConferenceAction ROOM_SET {["room" := room]}.

Definition conferenceJoined (conference : JitsiConference) : M unit :=
  state <~ getState ;;
  let localTracks :=
    List.map jitsiTrack (List.filter (fun t => local t) (tracks state)) in
  (if negb (length localTracks =? 0)
   then emit (Call_addLocalTracksToConference conference localTracks)
   else ret tt) ;;;
  dispatch (ConferenceAction CONFERENCE_JOINED
              {["jitsiConference" := VRef conference]}) ;;;
  ret tt.

(** The body of each registered arrow function, run when the SDK fires the
    event with arguments [args]. *)
Definition invoke {A} (l : listener A) : A -> M unit :=
  match l in listener A return A -> M unit with
  | onConferenceJoined conference => fun _ =>
      dispatchThunk (conferenceJoined conference)
  | onConferenceLeft conference => fun _ =>
      dispatch (conferenceLeft conference) ;;; ret tt
  | onDominantSpeakerChanged => fun id =>
      dispatch (dominantSpeakerChanged id) ;;; ret tt
  | onTrackAdded => fun track =>
      match track with
      | None => ret tt
      | Some t =>
          if isLocal t then ret tt
          else dispatch (TracksAction trackAdded track) ;;; ret tt
      end
  | onTrackMuteChanged => fun track =>
      dispatch (TracksAction trackMuteChanged track) ;;; ret tt
  | onTrackRemoved => fun track =>
      match track with
      | None => ret tt
      | Some t =>
          if isLocal t then ret tt
          else dispatch (TracksAction trackRemoved track) ;;; ret tt
      end
  | onUserJoined => fun '(id, user) =>
      dispatch (participantJoined
                  (<["id" := id]>
                    (<["name" := getDisplayName user]>
                      (<["role" := getRole user]> ∅)))) ;;;
      ret tt
  | onUserLeft => fun id =>
      dispatch (participantLeft id) ;;; ret tt
  | onUserRoleChanged => fun '(id, role) =>
      dispatch (participantRoleChanged id role) ;;; ret tt
  | onEmailCommand => fun '(data, id) =>
      dispatch (changeParticipantEmail id (get data "value")) ;;; ret tt
  end.

Definition _setupConferenceListeners (conference : JitsiConference) : M unit :=
  emit (Sdk_on conference JitsiConferenceEvents.CONFERENCE_JOINED
          (onConferenceJoined conference)) ;;;
  emit (Sdk_on conference JitsiConferenceEvents.CONFERENCE_LEFT
          (onConferenceLeft conference)) ;;;
  emit (Sdk_on conference JitsiConferenceEvents.DOMINANT_SPEAKER_CHANGED
          onDominantSpeakerChanged) ;;;
  emit (Sdk_on conference JitsiConferenceEvents.TRACK_ADDED onTrackAdded) ;;;
  emit (Sdk_on conference JitsiConferenceEvents.TRACK_MUTE_CHANGED
          onTrackMuteChanged) ;;;
  emit (Sdk_on conference JitsiConferenceEvents.TRACK_REMOVED
          onTrackRemoved) ;;;
  emit (Sdk_on conference JitsiConferenceEvents.USER_JOINED onUserJoined) ;;;
  emit (Sdk_on conference JitsiConferenceEvents.USER_LEFT onUserLeft) ;;;
  emit (Sdk_on conference JitsiConferenceEvents.USER_ROLE_CHANGED
          onUserRoleChanged) ;;;
  emit (Sdk_addCommandListener conference EMAIL_COMMAND onEmailCommand).

Definition createConference (room : val) : M unit :=
  state <~ getState ;;
  match connection state with
  | None => throw (Error "Cannot create conference without connection")
  | Some connection =>
      let options : obj := {["openSctp" := VBool true]} in
      emit (Sdk_initJitsiConference connection room options) ;;;
      let conference := initJitsiConference connection room options in
      dispatchThunk (_setupConferenceListeners conference) ;;;
      emit (Sdk_join conference)
  end.

End Actions.

(** Running a thunk on a store whose log is still empty. *)
Definition run {A} (thunk : M A) (state : State) : completion A * Store :=
  thunk (mkStore state []).

(** The actions a run dispatched, in order. *)
Definition dispatched (l : list event) : list action :=
  omap (fun e => match e with Dispatched a => Some a | _ => None end) l.

(** The SDK pin requests of a run, in order. *)
Definition pinRequests (l : list event) : list val :=
  omap (fun e => match e with Sdk_pinParticipant _ id => Some id | _ => None end) l.

(** ** The participants roster *)

(** [p.local], as the callback of [find(p => p.local)] tests it. *)
Definition flaggedLocal (p : obj) : bool := truthy (get p "local").

(** Modelled from the spec: the participants reducer ([./reducer], imported
    by [participants/actions.js]) is not among the sources. Only its
    [PARTICIPANT_PINNED] case is modelled: the data model gives a participant
    record a [pinned] flag and speaks of one pin target, and the comment in
    [pinParticipant] says that pinning another id unpins the local
    participant, so after the action the flag of each record tells whether
    its id is the pinned one. What the reducer does with the other actions
    is not modelled: the roster is returned as it is, and nothing is proved
    about them. *)
Definition participantsReducer (state : list obj) (a : action) : list obj :=
  match a with
  | ParticipantAction PARTICIPANT_PINNED participant =>
      List.map (fun p => <["pinned" :=
                             VBool (strictEq (get p "id") (get participant "id"))]> p)
               state
  | _ => state
  end.

(** ** Example stores *)

Definition me : obj :=
  <["id" := VStr "me"]> (<["name" := VStr "Me"]> (<["local" := VBool true]> ∅)).

Definition alice : obj :=
  <["id" := VStr "alice"]> (<["name" := VStr "Alice"]> ∅).

(** A joined conference with the local participant and one remote one. *)
Definition inConference : State :=
  mkState (Some 1) (mkConferenceState (Some 7)) [me; alice]
          [mkTrack true (mkJitsiTrack 20 true); mkTrack false (mkJitsiTrack 21 false)].

(** Connected, no conference yet, empty roster, no tracks. *)
Definition connectedOnly : State :=
  mkState (Some 1) (mkConferenceState None) [] [].

(** Nothing at all: no connection either. *)
Definition disconnected : State :=
  mkState None (mkConferenceState None) [] [].

Definition bob : obj :=
  <["id" := VStr "bob"]> (<["name" := VStr "Bob"]> (<["local" := VBool false]> ∅)).

(** Two remote participants in the roster and no local one (the local
    participant has left, or has not joined yet). *)
Definition remoteOnly : State :=
  mkState (Some 1) (mkConferenceState (Some 7)) [alice; bob] [].

(** A store whose reducer leaves the state as it is. *)
Definition inertReducer (state : State) (_ : action) : State := state.

(** The local participant, pinned in the store. *)
Definition mePinned : obj := <["pinned" := VBool true]> me.

(** The local participant is pinned; no conference object in the state. *)
Definition localPinned : State :=
  mkState (Some 1) (mkConferenceState None) [mePinned; alice] [].

(** ** Reading a log *)

#[global] Instance conferenceEvent_eq_dec : EqDecision JitsiConferenceEvents.t.
Proof. solve_decision. Defined.

(** The SDK events for which a run registered a listener with
    [conference.on], in order. *)
Definition registeredEvents (l : list event) : list JitsiConferenceEvents.t :=
  omap (fun e => match e with Sdk_on _ ev _ => Some ev | _ => None end) l.

(** The commands for which a run registered a listener with
    [conference.addCommandListener], in order. *)
Definition registeredCommands (l : list event) : list command :=
  omap (fun e => match e with
                 | Sdk_addCommandListener _ cmd _ => Some cmd
                 | _ => None
                 end) l.

(** The conference object a call was made on. *)
Definition conferenceOf (e : event) : option JitsiConference :=
  match e with
  | Dispatched _ => None
  | Sdk_initJitsiConference _ _ _ => None
  | Sdk_on c _ _ => Some c
  | Sdk_addCommandListener c _ _ => Some c
  | Sdk_join c => Some c
  | Sdk_pinParticipant c _ => Some c
  | Call_addLocalTracksToConference c _ => Some c
  end.

(** The object an action carries: its [participant] or [conference]. *)
Definition payload (a : action) : obj :=
  match a with
  | ParticipantAction _ participant => participant
  | ConferenceAction _ conference => conference
  | TracksAction _ _ => ∅
  end.

(** A method call on an SDK object, as opposed to a dispatch or a call of
    [_addLocalTracksToConference]. *)
Definition isSdkCall (e : event) : bool :=
  match e with
  | Dispatched _ => false
  | Call_addLocalTracksToConference _ _ => false
  | _ => true
  end.

(** * Properties *)

(** ** The local participant lookup *)

Lemma getLocalParticipant_run (s : State) :
  run _getLocalParticipant s =
    (Normal (List.find flaggedLocal (participants s)), mkStore s []).
Proof. reflexivity. Qed.

(** [find] answers [undefined] exactly on a roster without local participant. *)
Lemma find_flaggedLocal_None (roster : list obj) :
  List.find flaggedLocal roster = None <->
  Forall (fun p => flaggedLocal p = false) roster.
Proof.
  induction roster as [|p roster IH]; simpl.
  - split; [constructor | reflexivity].
  - destruct (flaggedLocal p) eqn:Hp.
    + split; [discriminate | intros H; inversion H; congruence].
    + rewrite IH. split.
      * intros H. by constructor.
      * intros H. by inversion H.
Qed.

(** On a roster with a local participant, [find] answers the first one. *)
Lemma find_flaggedLocal_Some (roster : list obj) :
  Exists (fun p => flaggedLocal p = true) roster ->
  exists lp, List.find flaggedLocal roster = Some lp /\
             flaggedLocal lp = true /\ In lp roster.
Proof.
  intros HE. destruct (List.find flaggedLocal roster) as [lp|] eqn:Hf.
  - exists lp. apply find_some in Hf. tauto.
  - exfalso. apply find_flaggedLocal_None in Hf.
    apply Exists_exists in HE as (p & Hin & Hp).
    rewrite Forall_forall in Hf.
    specialize (Hf p Hin). congruence.
Qed.

(** ** Reading the properties of the objects the creators build *)

Lemma get_insert_eq (o : obj) (k : string) (v : val) : get (<[k := v]> o) k = v.
Proof. unfold get. by rewrite lookup_insert_eq. Qed.

Lemma get_insert_ne (o : obj) (k k' : string) (v : val) :
  k <> k' -> get (<[k := v]> o) k' = get o k'.
Proof. intros H. unfold get. by rewrite lookup_insert_ne. Qed.

Lemma spread_into_empty (o : obj) : spread o ∅ = o.
Proof. unfold spread. apply (right_id_L ∅ (∪)). Qed.

Section Participants.

Variable reducer : State -> action -> State.

(** C5. In every store state with a participant flagged local,
    [localParticipantIdChanged(id)] dispatches exactly one action,
    [{type: PARTICIPANT_ID_CHANGED, participant: {newId: id, previousId}}],
    whose [previousId] is the id of the local participant that
    [_getLocalParticipant] finds; nothing else happens in the run. *)
Theorem localParticipantIdChanged_dispatches (s : State) (id : val) :
  Exists (fun p => flaggedLocal p = true) (participants s) ->
  exists lp : obj,
    run _getLocalParticipant s = (Normal (Some lp), mkStore s []) /\
    flaggedLocal lp = true /\ In lp (participants s) /\
    let a := ParticipantAction PARTICIPANT_ID_CHANGED
               (list_to_map [("newId", id); ("previousId", get lp "id")]) in
    run (localParticipantIdChanged reducer id) s =
      (Normal (Some a), mkStore (reducer s a) [Dispatched a]).
Proof.
  intros HE. destruct (find_flaggedLocal_Some _ HE) as (lp & Hf & Hl & Hin).
  exists lp. rewrite getLocalParticipant_run, Hf.
  repeat split; try assumption.
  unfold run, localParticipantIdChanged, _getLocalParticipant, bind, getState,
    ret, dispatch. simpl. unfold flaggedLocal in Hf. by rewrite Hf.
Qed.

(** C10. In every store state whose roster has no participant flagged
    local, the thunks of [localParticipantLeft()] and of
    [localParticipantIdChanged(id)] return [undefined] and leave the store as
    it was: nothing dispatched, state unchanged. *)
Theorem no_local_participant_no_dispatch (s : State) (id : val) :
  Forall (fun p => flaggedLocal p = false) (participants s) ->
  run (localParticipantLeft reducer) s = (Normal None, mkStore s []) /\
  run (localParticipantIdChanged reducer id) s = (Normal None, mkStore s []).
Proof.
  intros HF. apply find_flaggedLocal_None in HF. unfold flaggedLocal in HF.
  unfold run, localParticipantLeft, localParticipantIdChanged,
    _getLocalParticipant, bind, getState, ret. simpl.
  by rewrite HF.
Qed.

End Participants.

Lemma localParticipantIdChanged_dispatches_witness :
  Exists (fun p => flaggedLocal p = true) (participants inConference) /\
  exists lp : obj,
    run _getLocalParticipant inConference
      = (Normal (Some lp), mkStore inConference []) /\
    flaggedLocal lp = true /\ In lp (participants inConference) /\
    let a := ParticipantAction PARTICIPANT_ID_CHANGED
               (list_to_map [("newId", VStr "me2"); ("previousId", get lp "id")]) in
    run (localParticipantIdChanged inertReducer (VStr "me2")) inConference =
      (Normal (Some a), mkStore (inertReducer inConference a) [Dispatched a]).
Proof.
  assert (H : Exists (fun p => flaggedLocal p = true) (participants inConference))
    by (apply Exists_cons_hd; reflexivity).
  split; [exact H |].
  exact (localParticipantIdChanged_dispatches inertReducer inConference (VStr "me2") H).
Defined.

Lemma no_local_participant_no_dispatch_witness :
  participants remoteOnly = [alice; bob] /\
  Forall (fun p => flaggedLocal p = false) (participants remoteOnly) /\
  run (localParticipantLeft inertReducer) remoteOnly
    = (Normal None, mkStore remoteOnly []) /\
  run (localParticipantIdChanged inertReducer (VStr "me2")) remoteOnly
    = (Normal None, mkStore remoteOnly []).
Proof.
  assert (H : Forall (fun p => flaggedLocal p = false) (participants remoteOnly))
    by (simpl; repeat constructor).
  split; [reflexivity |]. split; [exact H |].
  exact (no_local_participant_no_dispatch inertReducer remoteOnly (VStr "me2") H).
Defined.

(** ** The plain participant action creators *)

(** C7. The roster life cycle as actions: [participantJoined(p)] is
    [{type: PARTICIPANT_JOINED, participant: p}], [changeParticipantEmail]
    and [participantRoleChanged] are [PARTICIPANT_UPDATED] actions carrying
    [{id, email}] and [{id, role}], [participantLeft(id)] is
    [{type: PARTICIPANT_LEFT, participant: {id}}] with [id] its only
    property; and the USER_JOINED, USER_ROLE_CHANGED, EMAIL_COMMAND and
    USER_LEFT listeners dispatch exactly these actions. These four are the
    listeners [_setupConferenceListeners] registers on the conference for
    the join, role-change and leave events and for the email command. *)
Theorem participant_lifecycle_actions :
  (forall p : obj,
     participantJoined p = ParticipantAction PARTICIPANT_JOINED p) /\
  (forall id email : val,
     changeParticipantEmail id email =
       ParticipantAction PARTICIPANT_UPDATED
         (list_to_map [("id", id); ("email", email)])) /\
  (forall id role : val,
     participantRoleChanged id role =
       ParticipantAction PARTICIPANT_UPDATED
         (list_to_map [("id", id); ("role", role)])) /\
  (forall id : val,
     participantLeft id =
       ParticipantAction PARTICIPANT_LEFT (list_to_map [("id", id)]) /\
     dom (list_to_map [("id", id)] : obj) = {["id"]}) /\
  (forall reducer s id user,
     let a := participantJoined
                (list_to_map [("id", id); ("name", getDisplayName user);
                              ("role", getRole user)]) in
     run (invoke reducer onUserJoined (id, user)) s =
       (Normal tt, mkStore (reducer s a) [Dispatched a])) /\
  (forall reducer s id role,
     let a := participantRoleChanged id role in
     run (invoke reducer onUserRoleChanged (id, role)) s =
       (Normal tt, mkStore (reducer s a) [Dispatched a])) /\
  (forall reducer s data id,
     let a := changeParticipantEmail id (get data "value") in
     run (invoke reducer onEmailCommand (data, id)) s =
       (Normal tt, mkStore (reducer s a) [Dispatched a])) /\
  (forall reducer s id,
     let a := participantLeft id in
     run (invoke reducer onUserLeft id) s =
       (Normal tt, mkStore (reducer s a) [Dispatched a])) /\
  (forall (s : State) (c : JitsiConference),
     let registered := log (run (_setupConferenceListeners c) s).2 in
     In (Sdk_on c JitsiConferenceEvents.USER_JOINED onUserJoined) registered /\
     In (Sdk_on c JitsiConferenceEvents.USER_ROLE_CHANGED onUserRoleChanged)
        registered /\
     In (Sdk_addCommandListener c EMAIL_COMMAND onEmailCommand) registered /\
     In (Sdk_on c JitsiConferenceEvents.USER_LEFT onUserLeft) registered).
Proof.
  repeat split; try reflexivity; simpl; tauto.
Qed.

(** C8. [localParticipantJoined(p)] is [participantJoined({...p, local: true})]:
    the participant of the action has [local === true] whatever [p.local]
    was, and every other property is that of [p]. *)
Theorem localParticipantJoined_sets_local (p : obj) :
  localParticipantJoined (Some p) =
    participantJoined (<["local" := VBool true]> p) /\
  exists q : obj,
    localParticipantJoined (Some p) = ParticipantAction PARTICIPANT_JOINED q /\
    get q "local" = VBool true /\
    forall k : string, k <> "local" -> get q k = get p k.
Proof.
  unfold localParticipantJoined. simpl. rewrite spread_into_empty.
  split; [reflexivity |].
  exists (<["local" := VBool true]> p). split; [reflexivity |].
  split; [apply get_insert_eq |].
  intros k Hk. by apply get_insert_ne.
Qed.

(** An input that says [local: false] still joins as local. *)
Example localParticipantJoined_overrides_false :
  let p : obj := <["id" := VStr "bob"]> (<["local" := VBool false]> ∅) in
  localParticipantJoined (Some p) =
    ParticipantAction PARTICIPANT_JOINED
      (<["id" := VStr "bob"]> (<["local" := VBool true]> ∅)).
Proof. vm_compute. reflexivity. Qed.

(** Without argument the default [{}] is used. *)
Example localParticipantJoined_default :
  localParticipantJoined None =
    ParticipantAction PARTICIPANT_JOINED {["local" := VBool true]}.
Proof. vm_compute. reflexivity. Qed.

(** ** The conference action creators *)

Section Conference.

Variable reducer : State -> action -> State.
Variable initJitsiConference : JitsiConnection -> val -> obj -> JitsiConference.

(** C6. [conferenceJoined(c)] dispatches
    [{type: CONFERENCE_JOINED, conference: {jitsiConference: c}}], the
    reference [c] itself; with [ts] the [jitsiTrack]s of the local entries
    of the tracks slice, [_addLocalTracksToConference(c, ts)] is called,
    before the dispatch, exactly when [ts] is not empty. *)
Theorem conferenceJoined_trace (s : State) (c : JitsiConference) :
  let ts := List.map jitsiTrack (List.filter (fun t => local t) (tracks s)) in
  let a := ConferenceAction CONFERENCE_JOINED
             (list_to_map [("jitsiConference", VRef c)]) in
  run (conferenceJoined reducer c) s =
    (Normal tt,
     mkStore (reducer s a)
       (match ts with
        | [] => []
        | _ :: _ => [Call_addLocalTracksToConference c ts]
        end ++ [Dispatched a])) /\
  (In (Call_addLocalTracksToConference c ts)
      (log (run (conferenceJoined reducer c) s).2) <-> ts <> []) /\
  get (list_to_map [("jitsiConference", VRef c)]) "jitsiConference" = VRef c.
Proof.
  intros ts a.
  assert (Hrun : run (conferenceJoined reducer c) s =
    (Normal tt,
     mkStore (reducer s a)
       (match ts with
        | [] => []
        | _ :: _ => [Call_addLocalTracksToConference c ts]
        end ++ [Dispatched a]))).
  { unfold run, conferenceJoined, bind, getState, ret, dispatch, emit. simpl.
    fold ts. destruct ts; reflexivity. }
  split; [exact Hrun |]. split; [| reflexivity].
  rewrite Hrun. simpl. destruct ts as [|t ts'] eqn:Hts; simpl.
  - split; [| congruence]. intros [H | []]. discriminate.
  - split; [discriminate |]. intros _. by left.
Qed.

(** C9. The TRACK_ADDED and TRACK_REMOVED listeners dispatch
    [trackAdded(track)] / [trackRemoved(track)] exactly when the track is not
    [null] and [track.isLocal()] is false, and otherwise do nothing; the
    TRACK_MUTE_CHANGED listener dispatches [trackMuteChanged(track)] for
    every track it receives. These are the listeners
    [_setupConferenceListeners] registers for the three events. *)
Theorem track_listeners (s : State) (c : JitsiConference)
        (track : option JitsiTrack) :
  let remote := match track with
                | Some t => negb (isLocal t)
                | None => false
                end in
  run (invoke reducer onTrackAdded track) s =
    (if remote
     then (Normal tt, mkStore (reducer s (TracksAction trackAdded track))
                              [Dispatched (TracksAction trackAdded track)])
     else (Normal tt, mkStore s [])) /\
  run (invoke reducer onTrackRemoved track) s =
    (if remote
     then (Normal tt, mkStore (reducer s (TracksAction trackRemoved track))
                              [Dispatched (TracksAction trackRemoved track)])
     else (Normal tt, mkStore s [])) /\
  run (invoke reducer onTrackMuteChanged track) s =
    (Normal tt, mkStore (reducer s (TracksAction trackMuteChanged track))
                        [Dispatched (TracksAction trackMuteChanged track)]) /\
  let registered := log (run (_setupConferenceListeners c) s).2 in
  In (Sdk_on c JitsiConferenceEvents.TRACK_ADDED onTrackAdded) registered /\
  In (Sdk_on c JitsiConferenceEvents.TRACK_REMOVED onTrackRemoved) registered /\
  In (Sdk_on c JitsiConferenceEvents.TRACK_MUTE_CHANGED onTrackMuteChanged)
     registered.
Proof.
  intros remote. subst remote.
  split; [| split; [| split]].
  - destruct track as [[r []]|]; reflexivity.
  - destruct track as [[r []]|]; reflexivity.
  - reflexivity.
  - simpl. tauto.
Qed.

(** C3. [createConference(room)] throws exactly when the state holds no
    connection; it then has called nothing and dispatched nothing, and the
    state is unchanged. With a connection it calls
    [connection.initJitsiConference(room, {openSctp: true})], registers the
    listeners on the conference that call returned, and then calls
    [conference.join()]. *)
Theorem createConference_behaviour (s : State) (room : val) :
  ((exists e, (run (createConference initJitsiConference room) s).1 = Throw e)
     <-> connection s = None) /\
  (connection s = None ->
   run (createConference initJitsiConference room) s =
     (Throw (Error "Cannot create conference without connection"),
      mkStore s [])) /\
  (forall conn : JitsiConnection, connection s = Some conn ->
   let options : obj := list_to_map [("openSctp", VBool true)] in
   let c := initJitsiConference conn room options in
   run (createConference initJitsiConference room) s =
     (Normal tt,
      mkStore s
        [ Sdk_initJitsiConference conn room options;
          Sdk_on c JitsiConferenceEvents.CONFERENCE_JOINED (onConferenceJoined c);
          Sdk_on c JitsiConferenceEvents.CONFERENCE_LEFT (onConferenceLeft c);
          Sdk_on c JitsiConferenceEvents.DOMINANT_SPEAKER_CHANGED
                 onDominantSpeakerChanged;
          Sdk_on c JitsiConferenceEvents.TRACK_ADDED onTrackAdded;
          Sdk_on c JitsiConferenceEvents.TRACK_MUTE_CHANGED onTrackMuteChanged;
          Sdk_on c JitsiConferenceEvents.TRACK_REMOVED onTrackRemoved;
          Sdk_on c JitsiConferenceEvents.USER_JOINED onUserJoined;
          Sdk_on c JitsiConferenceEvents.USER_LEFT onUserLeft;
          Sdk_on c JitsiConferenceEvents.USER_ROLE_CHANGED onUserRoleChanged;
          Sdk_addCommandListener c EMAIL_COMMAND onEmailCommand;
          Sdk_join c ])).
Proof.
  unfold run, createConference, bind, getState. simpl.
  destruct (connection s) as [conn|] eqn:Hc.
  - split; [| split].
    + split; [intros [e He]; discriminate He | discriminate].
    + discriminate.
    + intros conn' [= <-]. reflexivity.
  - split; [| split].
    + split; [reflexivity | intros _; eexists; reflexivity].
    + reflexivity.
    + discriminate.
Qed.

End Conference.

Lemma createConference_behaviour_witness :
  connection disconnected = None /\
  run (createConference (fun _ _ _ => 7) (VStr "room")) disconnected =
    (Throw (Error "Cannot create conference without connection"),
     mkStore disconnected []) /\
  connection connectedOnly = Some 1 /\
  log (run (createConference (fun _ _ _ => 7) (VStr "room")) connectedOnly).2 =
    [ Sdk_initJitsiConference 1 (VStr "room") {["openSctp" := VBool true]};
      Sdk_on 7 JitsiConferenceEvents.CONFERENCE_JOINED (onConferenceJoined 7);
      Sdk_on 7 JitsiConferenceEvents.CONFERENCE_LEFT (onConferenceLeft 7);
      Sdk_on 7 JitsiConferenceEvents.DOMINANT_SPEAKER_CHANGED
             onDominantSpeakerChanged;
      Sdk_on 7 JitsiConferenceEvents.TRACK_ADDED onTrackAdded;
      Sdk_on 7 JitsiConferenceEvents.TRACK_MUTE_CHANGED onTrackMuteChanged;
      Sdk_on 7 JitsiConferenceEvents.TRACK_REMOVED onTrackRemoved;
      Sdk_on 7 JitsiConferenceEvents.USER_JOINED onUserJoined;
      Sdk_on 7 JitsiConferenceEvents.USER_LEFT onUserLeft;
      Sdk_on 7 JitsiConferenceEvents.USER_ROLE_CHANGED onUserRoleChanged;
      Sdk_addCommandListener 7 EMAIL_COMMAND onEmailCommand;
      Sdk_join 7 ].
Proof.
  split; [reflexivity |].
  split.
  - exact (proj1 (proj2 (createConference_behaviour (fun _ _ _ => 7)
                           disconnected (VStr "room"))) eq_refl).
  - split; [reflexivity |].
    exact (f_equal (fun r => log r.2)
             (proj2 (proj2 (createConference_behaviour (fun _ _ _ => 7)
                              connectedOnly (VStr "room"))) 1 eq_refl)).
Defined.

(** ** Pinning *)

(** The condition of [pinParticipant] in words: the participant with that
    id exists and is not local, or there is none and no local participant is
    currently pinned. *)
Lemma pinCondition_spec (participant localParticipant : option obj) :
  pinCondition participant localParticipant = true <->
  (exists p, participant = Some p /\ flaggedLocal p = false) \/
  (participant = None /\
   forall lp, localParticipant = Some lp -> truthy (get lp "pinned") = false).
Proof.
  unfold pinCondition, flaggedLocal.
  destruct participant as [p|]; simpl.
  - rewrite orb_false_r, negb_true_iff. split.
    + intros H. left. eauto.
    + intros [(q & [= <-] & H) | [[=] _]]. exact H.
  - destruct localParticipant as [lp|]; simpl.
    + rewrite negb_true_iff. split.
      * intros H. right. split; [reflexivity |]. by intros ? [= <-].
      * intros [(q & [=] & _) | [_ H]]. by apply H.
    + split; [| reflexivity]. intros _. right. split; [reflexivity |].
      intros ? [=].
Qed.

(** With unique ids, looking a participant up by its own id finds it. *)
Lemma find_by_id_unique (roster : list obj) (lp : obj) :
  NoDup (List.map (fun p => get p "id") roster) ->
  In lp roster ->
  List.find (fun p => strictEq (get p "id") (get lp "id")) roster = Some lp.
Proof.
  induction roster as [|q roster IH]; simpl; [tauto |].
  intros Hnd Hin. apply NoDup_cons in Hnd as [Hq Hnd].
  unfold strictEq at 1. case_bool_decide as Heq.
  - destruct Hin as [-> | Hin]; [reflexivity |].
    exfalso. apply Hq. rewrite Heq.
    apply list_elem_of_In, in_map_iff. eauto.
  - destruct Hin as [-> | Hin]; [congruence |]. by apply IH.
Qed.

Section Pinning.

Variable reducer : State -> action -> State.

(** One run of [pinParticipant(id)], by the value of its condition and the
    conference held in the state. *)
Lemma pinParticipant_run (s : State) (id : val) :
  let participant :=
    List.find (fun p => strictEq (get p "id") id) (participants s) in
  let localParticipant := List.find flaggedLocal (participants s) in
  let a := ParticipantAction PARTICIPANT_PINNED {["id" := id]} in
  run (pinParticipant reducer id) s =
    if pinCondition participant localParticipant
    then match jitsiConference (conference s) with
         | Some c => (Normal a, mkStore (reducer s a)
                                  [Sdk_pinParticipant c id; Dispatched a])
         | None => (Throw TypeError, mkStore s [])
         end
    else (Normal a, mkStore (reducer s a) [Dispatched a]).
Proof.
  intros participant localParticipant a.
  unfold run, pinParticipant, _getLocalParticipant, bind, getState, ret,
    dispatch. simpl.
  fold participant. change (List.find _ (participants s)) with localParticipant.
  destruct (pinCondition participant localParticipant); [| reflexivity].
  destruct (jitsiConference (conference s)); reflexivity.
Qed.

(** C2, as the code has it. When the condition of [pinParticipant(id)] is
    false, or the state holds a conference object, the thunk dispatches
    exactly one action, [{type: PARTICIPANT_PINNED, participant: {id}}]; the
    call [conference.pinParticipant(id)] is made exactly when the condition
    holds, and then before the dispatch. *)
Theorem pinParticipant_dispatches_once (s : State) (id : val) :
  let participant :=
    List.find (fun p => strictEq (get p "id") id) (participants s) in
  let localParticipant := List.find flaggedLocal (participants s) in
  let a := ParticipantAction PARTICIPANT_PINNED (list_to_map [("id", id)]) in
  (pinCondition participant localParticipant = false ->
   run (pinParticipant reducer id) s =
     (Normal a, mkStore (reducer s a) [Dispatched a])) /\
  (forall c : JitsiConference,
   pinCondition participant localParticipant = true ->
   jitsiConference (conference s) = Some c ->
   run (pinParticipant reducer id) s =
     (Normal a, mkStore (reducer s a) [Sdk_pinParticipant c id; Dispatched a])).
Proof.
  intros participant localParticipant a. rewrite pinParticipant_run.
  fold participant localParticipant.
  split.
  - intros ->. reflexivity.
  - intros c -> ->. reflexivity.
Qed.

(** Without a conference object in the state, a run whose condition holds
    stops at [conference.pinParticipant(id)] with a TypeError and dispatches
    nothing. *)
Lemma pinParticipant_no_conference (s : State) (id : val) :
  jitsiConference (conference s) = None ->
  pinCondition (List.find (fun p => strictEq (get p "id") id) (participants s))
               (List.find flaggedLocal (participants s)) = true ->
  run (pinParticipant reducer id) s = (Throw TypeError, mkStore s []).
Proof. intros Hc Hp. rewrite pinParticipant_run. simpl. by rewrite Hp, Hc. Qed.

(** A run for an id whose roster entry is flagged local: the condition is
    false, so only the dispatch happens. *)
Lemma pinParticipant_found_local (s : State) (id : val) (p : obj) :
  List.find (fun p => strictEq (get p "id") id) (participants s) = Some p ->
  flaggedLocal p = true ->
  let a := ParticipantAction PARTICIPANT_PINNED {["id" := id]} in
  run (pinParticipant reducer id) s =
    (Normal a, mkStore (reducer s a) [Dispatched a]).
Proof.
  intros Hf Hl a. rewrite pinParticipant_run. simpl. rewrite Hf.
  unfold pinCondition. unfold flaggedLocal in Hl. rewrite Hl. reflexivity.
Qed.

(** C1, as the code has it. When the roster entry with the given id is
    flagged local, [pinParticipant(id)] never calls
    [conference.pinParticipant]: the conditional keeps the pin from being
    signalled. The [PARTICIPANT_PINNED] action with that id is dispatched all
    the same. *)
Theorem pinParticipant_local_not_signalled (s : State) (id : val) (p : obj) :
  List.find (fun p => strictEq (get p "id") id) (participants s) = Some p ->
  flaggedLocal p = true ->
  let a := ParticipantAction PARTICIPANT_PINNED (list_to_map [("id", id)]) in
  run (pinParticipant reducer id) s =
    (Normal a, mkStore (reducer s a) [Dispatched a]) /\
  pinRequests (log (run (pinParticipant reducer id) s).2) = [].
Proof.
  intros Hf Hl a. rewrite (pinParticipant_found_local s id p Hf Hl).
  split; reflexivity.
Qed.

(** The same for the local participant of a roster with unique ids. *)
Corollary pinParticipant_local_unique_ids (s : State) (lp : obj) :
  NoDup (List.map (fun p => get p "id") (participants s)) ->
  List.find flaggedLocal (participants s) = Some lp ->
  pinRequests (log (run (pinParticipant reducer (get lp "id")) s).2) = [].
Proof.
  intros Hnd Hf. apply find_some in Hf as [Hin Hl].
  rewrite (pinParticipant_found_local s (get lp "id") lp); [reflexivity | | exact Hl].
  by apply find_by_id_unique.
Qed.

(** With duplicate ids the lookup by id may stop at a remote entry, and the
    pin of the id the local participant bears is then signalled. *)
Example pinParticipant_duplicate_id :
  let remote : obj := {["id" := VStr "me"]} in
  let s := mkState (Some 1) (mkConferenceState (Some 7)) [remote; me] [] in
  List.find flaggedLocal (participants s) = Some me /\
  pinRequests (log (run (pinParticipant reducer (VStr "me")) s).2) = [VStr "me"].
Proof. split; reflexivity. Qed.

End Pinning.

Lemma pinParticipant_dispatches_once_witness :
  (pinCondition
     (List.find (fun p => strictEq (get p "id") (VStr "me"))
                (participants inConference))
     (List.find flaggedLocal (participants inConference)) = false /\
   log (run (pinParticipant inertReducer (VStr "me")) inConference).2 =
     [Dispatched (ParticipantAction PARTICIPANT_PINNED {["id" := VStr "me"]})]) /\
  (pinCondition
     (List.find (fun p => strictEq (get p "id") (VStr "alice"))
                (participants inConference))
     (List.find flaggedLocal (participants inConference)) = true /\
   jitsiConference (conference inConference) = Some 7 /\
   log (run (pinParticipant inertReducer (VStr "alice")) inConference).2 =
     [Sdk_pinParticipant 7 (VStr "alice");
      Dispatched (ParticipantAction PARTICIPANT_PINNED {["id" := VStr "alice"]})]).
Proof.
  split.
  - split; [reflexivity |].
    exact (f_equal (fun r => log r.2)
             (proj1 (pinParticipant_dispatches_once inertReducer inConference
                       (VStr "me")) eq_refl)).
  - split; [reflexivity |]. split; [reflexivity |].
    exact (f_equal (fun r => log r.2)
             (proj2 (pinParticipant_dispatches_once inertReducer inConference
                       (VStr "alice")) 7 eq_refl eq_refl)).
Defined.

(** C2 as stated fails where the state holds no conference object:
    [pinParticipant('alice')] on an empty roster throws the TypeError of
    [undefined.pinParticipant] and dispatches nothing. *)
Lemma pinParticipant_throws_without_conference :
  jitsiConference (conference connectedOnly) = None /\
  run (pinParticipant inertReducer (VStr "alice")) connectedOnly =
    (Throw TypeError, mkStore connectedOnly []) /\
  dispatched (log (run (pinParticipant inertReducer (VStr "alice"))
                       connectedOnly).2) = [].
Proof. split; [reflexivity |]. split; reflexivity. Qed.

Lemma pinParticipant_local_not_signalled_witness :
  List.find (fun p => strictEq (get p "id") (VStr "me"))
            (participants inConference) = Some me /\
  flaggedLocal me = true /\
  pinRequests (log (run (pinParticipant inertReducer (VStr "me"))
                        inConference).2) = [].
Proof.
  split; [reflexivity |]. split; [reflexivity |].
  exact (proj2 (pinParticipant_local_not_signalled inertReducer inConference
                  (VStr "me") me eq_refl eq_refl)).
Defined.

(** C1 as stated fails: [pinParticipant('me')], with 'me' the id of the
    local participant, dispatches [PARTICIPANT_PINNED] for 'me' under every
    reducer, and the roster the reducer then builds has the local
    participant as its pinned one. *)
Lemma pinParticipant_pins_local_in_store :
  List.find flaggedLocal (participants inConference) = Some me /\
  get me "id" = VStr "me" /\
  (forall reducer : State -> action -> State,
     let a := ParticipantAction PARTICIPANT_PINNED {["id" := VStr "me"]} in
     run (pinParticipant reducer (VStr "me")) inConference =
       (Normal a, mkStore (reducer inConference a) [Dispatched a])) /\
  List.map (fun p => (get p "id", flaggedLocal p, get p "pinned"))
    (participantsReducer (participants inConference)
       (ParticipantAction PARTICIPANT_PINNED {["id" := VStr "me"]})) =
    [(VStr "me", true, VBool true); (VStr "alice", false, VBool false)].
Proof.
  split; [reflexivity |]. split; [reflexivity |]. split.
  - intros reducer a. reflexivity.
  - vm_compute. reflexivity.
Qed.

(** * Further properties of the action creators *)

(** ** The local participant lookup, continued *)

(** [find] stops at the first entry flagged local. *)
Lemma find_flaggedLocal_first (roster : list obj) (lp : obj) :
  List.find flaggedLocal roster = Some lp <->
  exists pre post,
    roster = pre ++ lp :: post /\
    Forall (fun p => flaggedLocal p = false) pre /\
    flaggedLocal lp = true.
Proof.
  induction roster as [|q roster IH]; simpl.
  - split; [discriminate |]. intros (pre & post & H & _). by destruct pre.
  - destruct (flaggedLocal q) eqn:Hq.
    + split.
      * intros [= <-]. exists [], roster. repeat split; [constructor | exact Hq].
      * intros (pre & post & H & Hpre & Hl). destruct pre as [|q' pre]; simpl in H.
        -- by injection H as ->.
        -- injection H as <- _. inversion Hpre; congruence.
    + rewrite IH. split.
      * intros (pre & post & -> & Hpre & Hl). exists (q :: pre), post.
        repeat split; [by constructor | exact Hl].
      * intros (pre & post & H & Hpre & Hl). destruct pre as [|q' pre]; simpl in H.
        -- injection H as -> _. congruence.
        -- injection H as <- ->. inversion Hpre; subst. eauto.
Qed.

(** X1. [_getLocalParticipant] only reads: the store is left as it was. It
    returns exactly the first roster entry whose [local] is truthy, so with
    several such entries the earliest one wins. *)
Theorem getLocalParticipant_first (s : State) :
  (run _getLocalParticipant s).2 = mkStore s [] /\
  forall lp : obj,
    (run _getLocalParticipant s).1 = Normal (Some lp) <->
    exists pre post,
      participants s = pre ++ lp :: post /\
      Forall (fun p => flaggedLocal p = false) pre /\
      flaggedLocal lp = true.
Proof.
  rewrite getLocalParticipant_run. simpl. split; [reflexivity |].
  intros lp. rewrite <- find_flaggedLocal_first.
  split; [by intros [= ->] | by intros ->].
Qed.

Section MoreParticipants.

Variable reducer : State -> action -> State.

(** X2. In every store state with a participant flagged local,
    [localParticipantLeft()] dispatches exactly one action,
    [{type: PARTICIPANT_LEFT, participant: {id}}] with the id of the local
    participant [_getLocalParticipant] finds, and nothing else happens. *)
Theorem localParticipantLeft_dispatches (s : State) :
  Exists (fun p => flaggedLocal p = true) (participants s) ->
  exists lp : obj,
    run _getLocalParticipant s = (Normal (Some lp), mkStore s []) /\
    let a := ParticipantAction PARTICIPANT_LEFT
               (list_to_map [("id", get lp "id")]) in
    run (localParticipantLeft reducer) s =
      (Normal (Some a), mkStore (reducer s a) [Dispatched a]).
Proof.
  intros HE. destruct (find_flaggedLocal_Some _ HE) as (lp & Hf & Hl & Hin).
  exists lp. rewrite getLocalParticipant_run, Hf. split; [reflexivity |].
  unfold run, localParticipantLeft, _getLocalParticipant, bind, getState,
    ret, dispatch. simpl. unfold flaggedLocal in Hf. by rewrite Hf.
Qed.

(** X3. The record that [localParticipantJoined(p)] creates is the one the
    two local thunks act on: when it is in the roster with no local entry
    before it, [localParticipantLeft()] dispatches [participantLeft(p.id)]
    and [localParticipantIdChanged(id)] dispatches the renumbering from
    [p.id] to [id]. *)
Theorem localParticipantJoined_then_local_thunks
        (s : State) (p : option obj) (q : obj) (pre post : list obj) (id : val) :
  localParticipantJoined p = participantJoined q ->
  participants s = pre ++ q :: post ->
  Forall (fun p => flaggedLocal p = false) pre ->
  dispatched (log (run (localParticipantLeft reducer) s).2) =
    [participantLeft (get (default ∅ p) "id")] /\
  dispatched (log (run (localParticipantIdChanged reducer id) s).2) =
    [ParticipantAction PARTICIPANT_ID_CHANGED
       (list_to_map [("newId", id); ("previousId", get (default ∅ p) "id")])].
Proof.
  intros Hq Hs Hpre.
  unfold localParticipantJoined, participantJoined in Hq. simpl in Hq.
  rewrite spread_into_empty in Hq. injection Hq as <-.
  assert (Hf : List.find flaggedLocal (participants s) =
               Some (<["local" := VBool true]> (default ∅ p))).
  { apply find_flaggedLocal_first. exists pre, post.
    repeat split; [exact Hs | exact Hpre |].
    unfold flaggedLocal. by rewrite get_insert_eq. }
  unfold run, localParticipantLeft, localParticipantIdChanged,
    _getLocalParticipant, bind, getState, ret, dispatch. simpl.
  unfold flaggedLocal in Hf. rewrite Hf. simpl.
  rewrite get_insert_ne by discriminate. split; reflexivity.
Qed.

End MoreParticipants.

Lemma localParticipantLeft_dispatches_witness :
  Exists (fun p => flaggedLocal p = true) (participants inConference) /\
  exists lp : obj,
    run _getLocalParticipant inConference
      = (Normal (Some lp), mkStore inConference []) /\
    let a := ParticipantAction PARTICIPANT_LEFT
               (list_to_map [("id", get lp "id")]) in
    run (localParticipantLeft inertReducer) inConference =
      (Normal (Some a), mkStore (inertReducer inConference a) [Dispatched a]).
Proof.
  assert (H : Exists (fun p => flaggedLocal p = true) (participants inConference))
    by (apply Exists_cons_hd; reflexivity).
  split; [exact H |].
  exact (localParticipantLeft_dispatches inertReducer inConference H).
Defined.

Lemma localParticipantJoined_then_local_thunks_witness :
  localParticipantJoined (Some {["id" := VStr "me"]}) =
    participantJoined (<["local" := VBool true]> {["id" := VStr "me"]}) /\
  dispatched (log (run (localParticipantLeft inertReducer)
      (mkState None (mkConferenceState None)
         ([alice] ++ <["local" := VBool true]> {["id" := VStr "me"]} :: []) [])).2) =
    [participantLeft (VStr "me")].
Proof.
  assert (H1 : localParticipantJoined (Some {["id" := VStr "me"]}) =
    participantJoined (<["local" := VBool true]> {["id" := VStr "me"]}))
    by (vm_compute; reflexivity).
  split; [exact H1 |].
  exact (proj1 (localParticipantJoined_then_local_thunks inertReducer
    (mkState None (mkConferenceState None)
       ([alice] ++ <["local" := VBool true]> {["id" := VStr "me"]} :: []) [])
    (Some {["id" := VStr "me"]})
    (<["local" := VBool true]> {["id" := VStr "me"]})
    [alice] [] VNull H1 eq_refl
    (@List.Forall_cons obj (fun p => flaggedLocal p = false) alice []
       (eq_refl : flaggedLocal alice = false) (@List.Forall_nil _ _)))).
Defined.

(** ** Pinning, continued *)

Section MorePinning.

Variable reducer : State -> action -> State.

(** X4. [pinParticipant(id)] throws exactly when its condition holds and
    the state has no conference object; what is thrown is the TypeError of
    the method call, nothing has been signalled or dispatched by then, and
    the state is unchanged. *)
Theorem pinParticipant_throws_iff (s : State) (id : val) :
  ((exists e, (run (pinParticipant reducer id) s).1 = Throw e) <->
   pinCondition
     (List.find (fun p => strictEq (get p "id") id) (participants s))
     (List.find flaggedLocal (participants s)) = true /\
   jitsiConference (conference s) = None) /\
  (forall e, (run (pinParticipant reducer id) s).1 = Throw e ->
     e = TypeError /\ (run (pinParticipant reducer id) s).2 = mkStore s []).
Proof.
  rewrite pinParticipant_run. simpl.
  destruct (pinCondition _ _); [destruct (jitsiConference (conference s)) |];
    simpl.
  - split; [split; [intros [e [=]] | intros [_ [=]]] | intros e [=]].
  - split; [split; [tauto | intros _; by eexists] | by intros e [= <-]].
  - split; [split; [intros [e [=]] | intros [[=] _]] | intros e [=]].
Qed.

(** X5. The SDK and the store are told the same thing: a run of
    [pinParticipant(id)] dispatches at most the one action
    [{type: PARTICIPANT_PINNED, participant: {id}}], asks the SDK at most
    once and only for [id], and whenever it has asked the SDK it also
    dispatches, after the SDK call. *)
Theorem pinParticipant_sdk_store_agree (s : State) (id : val) :
  let a := ParticipantAction PARTICIPANT_PINNED (list_to_map [("id", id)]) in
  let l := log (run (pinParticipant reducer id) s).2 in
  (dispatched l = [] \/ dispatched l = [a]) /\
  (pinRequests l = [] \/
   exists c, jitsiConference (conference s) = Some c /\
             l = [Sdk_pinParticipant c id; Dispatched a]).
Proof.
  intros a l. subst l. rewrite pinParticipant_run. simpl.
  destruct (pinCondition _ _); [destruct (jitsiConference (conference s)) as [c|] |];
    simpl.
  - split; [by right | right; by exists c].
  - split; by left.
  - split; [by right | by left].
Qed.

(** X6. Unpinning, as the comment in [pinParticipant] describes it: for an
    id that no roster entry has (such as [null]), a pinned local participant
    means the run only dispatches, whether or not there is a conference;
    otherwise, with conference [c], the unpin is signalled to the SDK first. *)
Theorem pinParticipant_unpin (s : State) (id : val) :
  List.find (fun p => strictEq (get p "id") id) (participants s) = None ->
  let a := ParticipantAction PARTICIPANT_PINNED (list_to_map [("id", id)]) in
  (forall lp, List.find flaggedLocal (participants s) = Some lp ->
     truthy (get lp "pinned") = true ->
     run (pinParticipant reducer id) s =
       (Normal a, mkStore (reducer s a) [Dispatched a])) /\
  (forall c, jitsiConference (conference s) = Some c ->
     (forall lp, List.find flaggedLocal (participants s) = Some lp ->
        truthy (get lp "pinned") = false) ->
     run (pinParticipant reducer id) s =
       (Normal a, mkStore (reducer s a) [Sdk_pinParticipant c id; Dispatched a])).
Proof.
  intros Hf a. rewrite pinParticipant_run. simpl. rewrite Hf.
  split.
  - intros lp -> Hp. unfold pinCondition. by rewrite Hp.
  - intros c -> Hl.
    destruct (List.find flaggedLocal (participants s)) as [lp|]; simpl.
    + unfold pinCondition. by rewrite (Hl lp eq_refl).
    + reflexivity.
Qed.

(** X8. What a run of [pinParticipant] leaves in the log, and whether it
    throws, depends on the roster and the conference slice only. *)
Theorem pinParticipant_reads_two_slices (s s' : State) (id : val) :
  participants s = participants s' ->
  conference s = conference s' ->
  log (run (pinParticipant reducer id) s).2 =
    log (run (pinParticipant reducer id) s').2 /\
  ((exists e, (run (pinParticipant reducer id) s).1 = Throw e) <->
   (exists e, (run (pinParticipant reducer id) s').1 = Throw e)).
Proof.
  intros Hp Hc. rewrite !pinParticipant_run. simpl. rewrite Hp, Hc.
  destruct (pinCondition _ _); [destruct (jitsiConference (conference s')) |];
    simpl; split; try reflexivity.
Qed.

End MorePinning.

Lemma pinParticipant_unpin_witness :
  List.find (fun p => strictEq (get p "id") VNull) (participants localPinned)
    = None /\
  List.find flaggedLocal (participants localPinned) = Some mePinned /\
  truthy (get mePinned "pinned") = true /\
  jitsiConference (conference localPinned) = None /\
  log (run (pinParticipant inertReducer VNull) localPinned).2 =
    [Dispatched (ParticipantAction PARTICIPANT_PINNED {["id" := VNull]})] /\
  List.find (fun p => strictEq (get p "id") VNull) (participants inConference)
    = None /\
  log (run (pinParticipant inertReducer VNull) inConference).2 =
    [Sdk_pinParticipant 7 VNull;
     Dispatched (ParticipantAction PARTICIPANT_PINNED {["id" := VNull]})].
Proof.
  split; [reflexivity |]. split; [reflexivity |]. split; [reflexivity |].
  split; [reflexivity |]. split.
  - exact (f_equal (fun r => log r.2)
             (proj1 (pinParticipant_unpin inertReducer localPinned VNull eq_refl)
                mePinned eq_refl eq_refl)).
  - split; [reflexivity |].
    refine (f_equal (fun r => log r.2)
             (proj2 (pinParticipant_unpin inertReducer inConference VNull eq_refl)
                7 eq_refl _)).
    intros lp [= <-]. reflexivity.
Defined.

Lemma pinParticipant_reads_two_slices_witness :
  let s' := mkState None (conference inConference) (participants inConference) [] in
  log (run (pinParticipant inertReducer (VStr "alice")) inConference).2 =
    log (run (pinParticipant inertReducer (VStr "alice")) s').2.
Proof.
  exact (proj1 (pinParticipant_reads_two_slices inertReducer inConference
                  (mkState None (conference inConference)
                     (participants inConference) [])
                  (VStr "alice") eq_refl eq_refl)).
Defined.

(** X7. In a roster with unique ids, [pinParticipant] called with the id of
    the local participant never reaches [conference.pinParticipant], with
    or without a conference object: the run is the single dispatch of
    [PARTICIPANT_PINNED] for that id. With a duplicate of the id earlier in
    the roster this fails ([pinParticipant_duplicate_id]). *)
Theorem pinParticipant_own_id (reducer : State -> action -> State)
        (s : State) (lp : obj) :
  NoDup (List.map (fun p => get p "id") (participants s)) ->
  List.find flaggedLocal (participants s) = Some lp ->
  let a := ParticipantAction PARTICIPANT_PINNED
             (list_to_map [("id", get lp "id")]) in
  run (pinParticipant reducer (get lp "id")) s =
    (Normal a, mkStore (reducer s a) [Dispatched a]).
Proof.
  intros Hnd Hf a. apply find_some in Hf as [Hin Hl].
  apply (pinParticipant_found_local reducer s (get lp "id") lp); [| exact Hl].
  by apply find_by_id_unique.
Qed.

Lemma pinParticipant_own_id_witness :
  NoDup (List.map (fun p => get p "id") (participants localPinned)) /\
  List.find flaggedLocal (participants localPinned) = Some mePinned /\
  log (run (pinParticipant inertReducer (get mePinned "id")) localPinned).2 =
    [Dispatched (ParticipantAction PARTICIPANT_PINNED {["id" := VStr "me"]})].
Proof.
  assert (H : NoDup (List.map (fun p => get p "id") (participants localPinned))).
  { apply NoDup_cons. split.
    - intros Hin. apply list_elem_of_In in Hin. simpl in Hin.
      destruct Hin as [Hin | []]. vm_compute in Hin. discriminate Hin.
    - apply NoDup_singleton. }
  split; [exact H |]. split; [reflexivity |].
  exact (f_equal (fun r => log r.2)
           (pinParticipant_own_id inertReducer localPinned mePinned H eq_refl)).
Defined.

(** ** The conference listeners, continued *)

Section MoreConference.

Variable reducer : State -> action -> State.
Variable initJitsiConference : JitsiConnection -> val -> obj -> JitsiConference.

(** X9. [_setupConferenceListeners(conference)] never throws, dispatches
    nothing and leaves the state as it is; it makes exactly ten
    registrations: one [conference.on] listener for each of the nine
    conference events, none twice, and one command listener, the one for
    [EMAIL_COMMAND]; all of them on the conference it was given. *)
Theorem setupConferenceListeners_registers_once (s : State) (c : JitsiConference) :
  let r := run (_setupConferenceListeners c) s in
  r.1 = Normal tt /\
  getStoreState r.2 = s /\
  dispatched (log r.2) = [] /\
  (forall ev : JitsiConferenceEvents.t,
     count_occ conferenceEvent_eq_dec (registeredEvents (log r.2)) ev = 1) /\
  length (registeredEvents (log r.2)) = 9 /\
  registeredCommands (log r.2) = [EMAIL_COMMAND] /\
  In (Sdk_addCommandListener c EMAIL_COMMAND onEmailCommand) (log r.2) /\
  length (log r.2) = 10 /\
  Forall (fun e => conferenceOf e = Some c) (log r.2).
Proof.
  simpl. split; [reflexivity |]. split; [reflexivity |]. split; [reflexivity |].
  split; [intros []; reflexivity |]. split; [reflexivity |].
  split; [reflexivity |]. split; [tauto |]. split; [reflexivity |].
  repeat constructor.
Qed.

(** X10. The listeners that [createConference(room)] registers are bound to
    the conference it created: the CONFERENCE_JOINED and CONFERENCE_LEFT
    listeners in its log, when the SDK fires them in any later state,
    dispatch [CONFERENCE_JOINED] and [CONFERENCE_LEFT] actions carrying the
    very handle [connection.initJitsiConference] returned, the one
    [join()] was called on. *)
Theorem createConference_listeners_carry_conference
        (s s' : State) (room : val) (conn : JitsiConnection) :
  connection s = Some conn ->
  let c := initJitsiConference conn room {["openSctp" := VBool true]} in
  let registered := log (run (createConference initJitsiConference room) s).2 in
  In (Sdk_on c JitsiConferenceEvents.CONFERENCE_JOINED (onConferenceJoined c))
     registered /\
  In (Sdk_on c JitsiConferenceEvents.CONFERENCE_LEFT (onConferenceLeft c))
     registered /\
  last registered = Some (Sdk_join c) /\
  dispatched (log (run (invoke reducer (onConferenceJoined c) tt) s').2) =
    [ConferenceAction CONFERENCE_JOINED
       (list_to_map [("jitsiConference", VRef c)])] /\
  dispatched (log (run (invoke reducer (onConferenceLeft c) tt) s').2) =
    [ConferenceAction CONFERENCE_LEFT
       (list_to_map [("jitsiConference", VRef c)])].
Proof.
  intros Hc c registered. subst registered.
  unfold run, createConference, bind, getState. simpl. rewrite Hc. simpl.
  fold c.
  split; [tauto |]. split; [tauto |]. split; [reflexivity |].
  split; [| reflexivity].
  unfold conferenceJoined, bind, getState, ret, dispatch, emit, dispatchThunk.
  simpl. destruct (List.map jitsiTrack _); reflexivity.
Qed.

(** X11. Whatever the SDK event, the listener registered for it, called
    with the arguments of that event (a user object for USER_JOINED, a data
    object for the email command), dispatches at most one action and makes
    none of the calls on the conference or the connection (registering,
    joining, pinning, creating a conference). The only other call any
    listener makes is [_addLocalTracksToConference], and only the
    CONFERENCE_JOINED listener makes it, for the conference it closes over:
    the log of every other listener consists of its dispatches alone. *)
Theorem listener_dispatches_at_most_once
        {A : Type} (l : listener A) (args : A) (s : State) :
  let st := (run (invoke reducer l args) s).2 in
  length (dispatched (log st)) <= 1 /\
  Forall (fun e => isSdkCall e = false) (log st) /\
  (forall c ts, In (Call_addLocalTracksToConference c ts) (log st) ->
     @existT Type listener A l =
     @existT Type listener unit (onConferenceJoined c)) /\
  ((forall c, @existT Type listener A l <>
              @existT Type listener unit (onConferenceJoined c)) ->
     log st = List.map Dispatched (dispatched (log st))).
Proof.
  destruct l; simpl in *.
  1: { unfold run, conferenceJoined, bind, getState, ret, dispatch, emit,
         dispatchThunk. simpl.
       destruct (List.map jitsiTrack _); simpl.
       - split; [lia |]. split; [repeat constructor |]. split.
         + intros c ts [[=] | []].
         + intros H. by destruct (H conference0).
       - split; [lia |]. split; [repeat constructor |]. split.
         + intros c ts [[= <- _] | [[=] | []]]. reflexivity.
         + intros H. by destruct (H conference0). }
  all: repeat match goal with
              | x : (_ * _)%type |- _ => destruct x
              | x : option JitsiTrack |- _ => destruct x as [[? []]|]
              end;
       simpl;
       (split; [lia |]; split; [repeat constructor |]; split;
        [ intros c ts Hin; simpl in Hin;
          repeat (destruct Hin as [Hin | Hin]; [discriminate Hin |]);
          destruct Hin
        | intros _; reflexivity ]).
Qed.

(** One run of [conferenceJoined(conference)]. *)
Lemma conferenceJoined_run (s : State) (c : JitsiConference) :
  let ts := List.map jitsiTrack (List.filter (fun t => local t) (tracks s)) in
  let a := ConferenceAction CONFERENCE_JOINED {["jitsiConference" := VRef c]} in
  run (conferenceJoined reducer c) s =
    (Normal tt,
     mkStore (reducer s a)
       (match ts with
        | [] => []
        | _ :: _ => [Call_addLocalTracksToConference c ts]
        end ++ [Dispatched a])).
Proof.
  intros ts a.
  unfold run, conferenceJoined, bind, getState, ret, dispatch, emit. simpl.
  fold ts. destruct ts; reflexivity.
Qed.

(** X12. [conferenceJoined] hands local media over exactly when the tracks
    slice has an entry flagged local, and then hands over the [jitsiTrack]s
    of the entries flagged local and of no others; a slice of remote
    entries only (or an empty one) leads to the dispatch alone. *)
Theorem conferenceJoined_local_tracks (s : State) (c : JitsiConference) :
  let l := log (run (conferenceJoined reducer c) s).2 in
  ((exists ts, In (Call_addLocalTracksToConference c ts) l) <->
   Exists (fun t => local t = true) (tracks s)) /\
  (forall ts, In (Call_addLocalTracksToConference c ts) l ->
     forall jt, In jt ts <->
       exists t, In t (tracks s) /\ local t = true /\ jitsiTrack t = jt) /\
  (Forall (fun t => local t = false) (tracks s) ->
   l = [Dispatched (ConferenceAction CONFERENCE_JOINED
                      (list_to_map [("jitsiConference", VRef c)]))]).
Proof.
  intros l. subst l. rewrite conferenceJoined_run. simpl.
  assert (Hmem : forall jt,
    In jt (List.map jitsiTrack (List.filter (fun t => local t) (tracks s))) <->
    exists t, In t (tracks s) /\ local t = true /\ jitsiTrack t = jt).
  { intros jt. rewrite in_map_iff. split.
    - intros (t & <- & Hin). apply filter_In in Hin as [Hin Hl]. eauto.
    - intros (t & Hin & Hl & <-). exists t. split; [reflexivity |].
      apply filter_In. auto. }
  destruct (List.map jitsiTrack (List.filter (fun t => local t) (tracks s)))
    as [|jt0 ts0] eqn:Hts; simpl.
  - split; [| split].
    + split.
      * intros (ts & [[=] | []]).
      * intros HE. exfalso. apply Exists_exists in HE as (t & Hin & Hl).
        apply list_elem_of_In in Hin.
        apply (proj2 (Hmem (jitsiTrack t))). eauto.
    + intros ts [[=] | []].
    + reflexivity.
  - split; [| split].
    + split; [| intros _; eexists; by left].
      intros _. destruct (proj1 (Hmem jt0)) as (t & Hin & Hl & _); [by left |].
      apply Exists_exists. exists t. split; [by apply list_elem_of_In | exact Hl].
    + intros ts [[= <-] | [[=] | []]]. exact Hmem.
    + intros HF. exfalso.
      destruct (proj1 (Hmem jt0)) as (t & Hin & Hl & _); [by left |].
      rewrite Forall_forall in HF. apply list_elem_of_In in Hin.
      specialize (HF t Hin). congruence.
Qed.

End MoreConference.

Lemma createConference_listeners_carry_conference_witness :
  connection connectedOnly = Some 1 /\
  dispatched (log (run (invoke inertReducer (onConferenceJoined 7) tt)
                       inConference).2) =
    [ConferenceAction CONFERENCE_JOINED {["jitsiConference" := VRef 7]}].
Proof.
  split; [reflexivity |].
  exact (proj1 (proj2 (proj2 (proj2
    (createConference_listeners_carry_conference inertReducer (fun _ _ _ => 7)
       connectedOnly inConference (VStr "room") 1 eq_refl))))).
Defined.

Lemma conferenceJoined_local_tracks_witness :
  Forall (fun t => local t = false) (tracks connectedOnly) /\
  log (run (conferenceJoined inertReducer 7) connectedOnly).2 =
    [Dispatched (ConferenceAction CONFERENCE_JOINED
                   {["jitsiConference" := VRef 7]})].
Proof.
  assert (H : Forall (fun t => local t = false) (tracks connectedOnly))
    by (simpl; constructor).
  split; [exact H |].
  exact (proj2 (proj2 (conferenceJoined_local_tracks inertReducer connectedOnly 7)) H).
Defined.

(** ** The plain action creators, continued *)

(** X13. An email update and a role update never collide: the action of
    [changeParticipantEmail] has exactly the properties [id] and [email]
    (also when the email is [undefined]) and no [role], that of
    [participantRoleChanged] exactly [id] and [role] and no [email], so the
    two are never the same action. *)
Theorem email_and_role_updates_differ (id email id' role : val) :
  changeParticipantEmail id email <> participantRoleChanged id' role /\
  (exists p : obj,
     changeParticipantEmail id email = ParticipantAction PARTICIPANT_UPDATED p /\
     dom p = {["id"; "email"]} /\ p !! "role" = None /\
     p !! "id" = Some id /\ p !! "email" = Some email) /\
  (exists p : obj,
     participantRoleChanged id' role = ParticipantAction PARTICIPANT_UPDATED p /\
     dom p = {["id"; "role"]} /\ p !! "email" = None /\
     p !! "id" = Some id' /\ p !! "role" = Some role).
Proof.
  split; [| split].
  - intros H.
    assert (Hl : Some email = None)
      by exact (f_equal (fun a => payload a !! "email") H).
    discriminate Hl.
  - eexists. split; [reflexivity |].
    split; [rewrite !dom_insert_L, dom_empty_L; set_solver |].
    split; [reflexivity |]. split; reflexivity.
  - eexists. split; [reflexivity |].
    split; [rewrite !dom_insert_L, dom_empty_L; set_solver |].
    split; [reflexivity |]. split; reflexivity.
Qed.

(** X14. [localParticipantJoined] is idempotent on the record it builds: its
    participant has the properties of the input plus [local], joining that
    record as local again gives the same action, and an omitted argument is
    the empty object. *)
Theorem localParticipantJoined_idempotent (p : obj) :
  localParticipantJoined (Some (<["local" := VBool true]> p)) =
    localParticipantJoined (Some p) /\
  (exists q : obj,
     localParticipantJoined (Some p) = ParticipantAction PARTICIPANT_JOINED q /\
     dom q = dom p ∪ {["local"]} /\
     localParticipantJoined (Some q) = localParticipantJoined (Some p)) /\
  localParticipantJoined None = localParticipantJoined (Some ∅).
Proof.
  unfold localParticipantJoined. simpl. rewrite !spread_into_empty.
  rewrite insert_insert_eq.
  split; [reflexivity |]. split; [| reflexivity].
  exists (<["local" := VBool true]> p). split; [reflexivity |].
  split; [rewrite dom_insert_L; apply (comm_L (∪)) |].
  rewrite spread_into_empty. by rewrite insert_insert_eq.
Qed.

(** X15. The arguments of the plain creators can be read back from their
    actions, so the creators are injective ([null] and [undefined] ids give
    different actions), and actions of different types are never confused. *)
Theorem plain_creators_injective :
  (forall id id', participantLeft id = participantLeft id' -> id = id') /\
  (forall id id',
     dominantSpeakerChanged id = dominantSpeakerChanged id' -> id = id') /\
  (forall id email id' email',
     changeParticipantEmail id email = changeParticipantEmail id' email' ->
     id = id' /\ email = email') /\
  (forall id role id' role',
     participantRoleChanged id role = participantRoleChanged id' role' ->
     id = id' /\ role = role') /\
  (forall c c', conferenceLeft c = conferenceLeft c' -> c = c') /\
  (forall room room', roomSet room = roomSet room' -> room = room') /\
  (forall id id', participantLeft id <> dominantSpeakerChanged id') /\
  (forall c room, conferenceLeft c <> roomSet room).
Proof.
  split; [| split; [| split; [| split; [| split; [| split; [| split]]]]]].
  - intros id id' H.
    assert (Hl : Some id = Some id')
      by exact (f_equal (fun a => payload a !! "id") H).
    by injection Hl.
  - intros id id' H.
    assert (Hl : Some id = Some id')
      by exact (f_equal (fun a => payload a !! "id") H).
    by injection Hl.
  - intros id email id' email' H.
    assert (H1 : Some id = Some id')
      by exact (f_equal (fun a => payload a !! "id") H).
    assert (H2 : Some email = Some email')
      by exact (f_equal (fun a => payload a !! "email") H).
    split; [by injection H1 | by injection H2].
  - intros id role id' role' H.
    assert (H1 : Some id = Some id')
      by exact (f_equal (fun a => payload a !! "id") H).
    assert (H2 : Some role = Some role')
      by exact (f_equal (fun a => payload a !! "role") H).
    split; [by injection H1 | by injection H2].
  - intros c c' H.
    assert (Hl : Some (VRef c) = Some (VRef c'))
      by exact (f_equal (fun a => payload a !! "jitsiConference") H).
    by injection Hl.
  - intros room room' H.
    assert (Hl : Some room = Some room')
      by exact (f_equal (fun a => payload a !! "room") H).
    by injection Hl.
  - intros id id' H.
    assert (Hl : PARTICIPANT_LEFT = DOMINANT_SPEAKER_CHANGED)
      by exact (f_equal (fun a => match a with
                                  | ParticipantAction type _ => type
                                  | _ => PARTICIPANT_LEFT
                                  end) H).
    discriminate Hl.
  - intros c room H.
    assert (Hl : CONFERENCE_LEFT = ROOM_SET)
      by exact (f_equal (fun a => match a with
                                  | ConferenceAction type _ => type
                                  | _ => CONFERENCE_LEFT
                                  end) H).
    discriminate Hl.
Qed.
